(** * Index-key resolution of the Open3D tensor accessor

    A shallow embedding of [cpp/pybind/core/tensor_accessor.cpp]: the
    overloads of [ToTensorKey], the type-name ladder [PyHandleToTensorKey]
    and the methods that [pybind_core_tensor_accessor] registers on the
    tensor class.

    Exceptions are explicit ([Result]); the registered lambdas run in a
    small monad [M] that threads the sequence of observable events (console
    lines and calls into the storage engine).  The tensor engine, the
    sequence and array converters and the slice unpacker live outside the
    translated file and are taken as an interface ([Collaborators]). *)

From Stdlib Require Import ZArith List String Bool Lia.
Import ListNotations.

Set Warnings "-register-all".

Local Open Scope string_scope.
Local Open Scope list_scope.
Local Open Scope Z_scope.

(** ** Exceptions and results *)

(** The C++ exceptions that can leave the accessor: [std::runtime_error]
    (what [utility::LogError] raises), pybind11's [cast_error] (a failed
    [handle::cast]), the [TypeError] pybind11 reports when no registered
    overload accepts the arguments, and whatever a collaborator raises. *)
Inductive Exception : Type :=
| runtime_error (what : string)
| cast_error
| type_error
| collaborator_error (what : string).

Inductive Result (A : Type) : Type :=
| Ok (a : A)
| Throw (e : Exception).

Arguments Ok {A} a.
Arguments Throw {A} e.

Definition bindR {A B : Type} (r : Result A) (k : A -> Result B) : Result B :=
  match r with
  | Ok a => k a
  | Throw e => Throw e
  end.

(** [try { body } catch (...) { handler }]. *)
Definition try_catch_all {A : Type} (body : Result A)
    (handler : Result A) : Result A :=
  match body with
  | Ok a => Ok a
  | Throw _ => handler
  end.

Declare Scope result_scope.
Delimit Scope result_scope with result.
Notation "x <- c1 ;; c2" := (bindR c1 (fun x => c2))
  (at level 100, c1 at next level, right associativity) : result_scope.

(** Modelled from the spec: [utility::LogError] (open3d/utility/Console.h is
    not part of the translated file).  The spec treats both call sites as
    failing, with no implicit success value: the call raises an error that
    carries the formatted message and never returns. *)
Definition LogError {A : Type} (msg : string) : Result A :=
  Throw (runtime_error msg).

(** The two formatted messages of [PyHandleToTensorKey]; [fmt]'s [{}] is
    replaced by the class name. *)
Definition invalid_key_type_message (class_name : string) : string :=
  ("PyHandleToTensorKey has invlaid key type " ++ class_name ++ ".")%string.

Definition cannot_cast_message : string := "Cannot cast index to Tensor.".

(** The spec's names for the two failures. *)
Definition UnsupportedIndexType (class_name : string) : Exception :=
  runtime_error (invalid_key_type_message class_name).

Definition KeyConversionError : Exception :=
  runtime_error cannot_cast_message.

(** ** Machine integers *)

(** Two's-complement reduction of [v] to [bits] bits. *)
Definition wrap_signed (bits : Z) (v : Z) : Z :=
  (v + 2 ^ (bits - 1)) mod 2 ^ bits - 2 ^ (bits - 1).

Definition in_signed_range (bits : Z) (v : Z) : bool :=
  (- 2 ^ (bits - 1) <=? v) && (v <? 2 ^ (bits - 1)).

(** Width of the C++ type [int] on the platforms Open3D builds for. *)
Definition INT_BITS : Z := 32.

(** Implicit conversion of an [int64_t] argument to an [int] parameter. *)
Definition int_of_int64 (v : Z) : Z := wrap_signed INT_BITS v.

(** [static_cast<int64_t>] of a [Py_ssize_t]. *)
Definition int64_of_ssize_t (v : Z) : Z := wrap_signed 64 v.

(** [static_cast<int64_t>(py::int_)]: [PyLong_AsLong] yields the value when
    it fits and [-1] otherwise (the pending Python error is not modelled). *)
Definition int64_of_py_int (v : Z) : Z :=
  if in_signed_range 64 v then v else -1.

(** ** Element types *)

(** Modelled from the spec: the element-type enumeration of
    open3d/core/Dtype.h, which is not part of the translated file.  The
    accessor only compares a dtype against [Bool] and requests [Int64];
    the other members stand for the narrower integers and the floats the
    spec mentions. *)
Inductive Dtype : Type :=
| Undefined | Float32 | Float64 | Int32 | Int64 | UInt8 | Bool.

Definition Dtype_eqb (a b : Dtype) : bool :=
  match a, b with
  | Undefined, Undefined | Float32, Float32 | Float64, Float64
  | Int32, Int32 | Int64, Int64 | UInt8, UInt8 | Bool, Bool => true
  | _, _ => false
  end.

(** ** Tensors, keys and Python values *)

(** The two opaque carrier types of the collaborators: the native tensor
    and the numpy array. *)
Class TensorTypes : Type := {
  Tensor : Type;
  NdArray : Type
}.

Section Model.
Context {TT : TensorTypes}.

(** Modelled from the spec: [TensorKey] (open3d/core/TensorKey.h is not part
    of the translated file), the closed union of section 3 with the three
    factory functions the accessor calls: [TensorKey::Index],
    [TensorKey::Slice] and [TensorKey::IndexTensor]. *)
Inductive TensorKey : Type :=
| Index (index : Z)
| Slice (start stop step : Z)
        (start_is_none stop_is_none step_is_none : bool)
| IndexTensor (index_tensor : Tensor).

(** What a Python object of a class other than the built-in ones holds for
    pybind11: a bound [Tensor] (of the bound class or of a Python subclass
    of it), a bound [TensorKey], nothing the accessor can load, or the
    integer value of an object that is not an exact [int] but converts to
    one (a [bool], a numpy integer, a subclass of [int]). *)
Inductive Held : Type :=
| HoldsTensor (t : Tensor)
| HoldsKey (tk : TensorKey)
| HoldsNothing
| HoldsInt (v : Z).

(** Python values as the accessor sees them.  The built-in constructors are
    objects of exactly that type; [PyInstance] is any other object, with
    the text of [str(type(obj))]. *)
Inductive PyObj : Type :=
| PyNone
| PyInt (v : Z)
| PySlice (start stop step : PyObj)
| PyList (items : list PyObj)
| PyTuple (items : list PyObj)
| PyArray (a : NdArray)
| PyInstance (class_name : string) (held : Held).

(** [std::string class_name(item.get_type().str())]. *)
Definition type_str (item : PyObj) : string :=
  match item with
  | PyNone => "<class 'NoneType'>"
  | PyInt _ => "<class 'int'>"
  | PySlice _ _ _ => "<class 'slice'>"
  | PyList _ => "<class 'list'>"
  | PyTuple _ => "<class 'tuple'>"
  | PyArray _ => "<class 'numpy.ndarray'>"
  | PyInstance class_name _ => class_name
  end.

(** [py::detail::PyNone_Check]. *)
Definition PyNone_Check (o : PyObj) : bool :=
  match o with
  | PyNone => true
  | _ => false
  end.

(** [std::string::find]; [npos] is [None]. *)
Definition find (s pattern : string) : option nat := index 0 pattern s.

Definition is_npos (r : option nat) : bool :=
  match r with
  | None => true
  | Some _ => false
  end.

(** [item.cast<T>()] for the types the ladder casts to: the value when the
    object has that type, [cast_error] otherwise.  [py::int_] also takes an
    object that converts to an int. *)
Definition cast_int (item : PyObj) : Result Z :=
  match item with
  | PyInt v => Ok v
  | PyInstance _ (HoldsInt v) => Ok v
  | _ => Throw cast_error
  end.

Definition cast_slice (item : PyObj) : Result (PyObj * PyObj * PyObj) :=
  match item with
  | PySlice start stop step => Ok (start, stop, step)
  | _ => Throw cast_error
  end.

Definition cast_list (item : PyObj) : Result (list PyObj) :=
  match item with
  | PyList items => Ok items
  | _ => Throw cast_error
  end.

Definition cast_tuple (item : PyObj) : Result (list PyObj) :=
  match item with
  | PyTuple items => Ok items
  | _ => Throw cast_error
  end.

Definition cast_array (item : PyObj) : Result NdArray :=
  match item with
  | PyArray a => Ok a
  | _ => Throw cast_error
  end.

Definition cast_Tensor (item : PyObj) : Result Tensor :=
  match item with
  | PyInstance _ (HoldsTensor t) => Ok t
  | _ => Throw cast_error
  end.

(** ** Collaborators *)

(** The interfaces the accessor calls: the dtype facility of [Tensor], the
    converters of pybind/core/tensor_converter.h, CPython's slice unpacker
    and the storage engine's element access.  [To_default_copy] is the
    default of the [copy] parameter of [Tensor::To], which the array
    overload relies on.  [PySlice_Unpack] gives the three numbers that the
    out-parameters hold after the call, whatever its status; the status and
    the Python error a failed call leaves pending are not part of the
    interface. *)
Class Collaborators : Type := {
  GetDtype : Tensor -> Dtype;
  To : Tensor -> Dtype -> bool -> Result Tensor;
  To_default_copy : bool;
  PyTupleToTensor : list PyObj -> Result Tensor;
  PyArrayToTensor : NdArray -> bool -> Result Tensor;
  PySlice_Unpack : PyObj -> PyObj -> PyObj -> Z * Z * Z;
  GetItem : Tensor -> TensorKey -> Result Tensor;
  GetItem_vector : Tensor -> list TensorKey -> Result Tensor;
  SetItem : Tensor -> TensorKey -> Tensor -> Result Tensor;
  SetItem_vector : Tensor -> list TensorKey -> Tensor -> Result Tensor
}.

Context {CO : Collaborators}.

Local Open Scope result_scope.

(** ** The overloads of [ToTensorKey] *)

(** [static TensorKey ToTensorKey(int key)]. *)
Definition ToTensorKey_int (key : Z) : TensorKey := Index key.

(** [static TensorKey ToTensorKey(const py::slice& key)]; the status that
    [PySlice_Unpack] returns is ignored by the source. *)
Definition ToTensorKey_slice (key_start key_stop key_step : PyObj)
    : TensorKey :=
  let '(start, stop, step) := PySlice_Unpack key_start key_stop key_step in
  Slice (int64_of_ssize_t start) (int64_of_ssize_t stop)
        (int64_of_ssize_t step)
        (PyNone_Check key_start) (PyNone_Check key_stop)
        (PyNone_Check key_step).

(** [static TensorKey ToTensorKey(const py::list& key)]; the list is
    converted to a tuple of the same items for [PyTupleToTensor]. *)
Definition ToTensorKey_list (key : list PyObj) : Result TensorKey :=
  key_tensor <- PyTupleToTensor key ;;
  key_tensor <- (if negb (Dtype_eqb (GetDtype key_tensor) Bool)
                 then To key_tensor Int64 false
                 else Ok key_tensor) ;;
  Ok (IndexTensor key_tensor).

(** [static TensorKey ToTensorKey(const py::tuple& key)]. *)
Definition ToTensorKey_tuple (key : list PyObj) : Result TensorKey :=
  key_tensor <- PyTupleToTensor key ;;
  key_tensor <- (if negb (Dtype_eqb (GetDtype key_tensor) Bool)
                 then To key_tensor Int64 false
                 else Ok key_tensor) ;;
  Ok (IndexTensor key_tensor).

(** [static TensorKey ToTensorKey(const py::array& key)]. *)
Definition ToTensorKey_array (key : NdArray) : Result TensorKey :=
  key_tensor <- PyArrayToTensor key false ;;
  key_tensor <- (if negb (Dtype_eqb (GetDtype key_tensor) Bool)
                 then To key_tensor Int64 To_default_copy
                 else Ok key_tensor) ;;
  Ok (IndexTensor key_tensor).

(** [static TensorKey ToTensorKey(const Tensor& key_tensor)]. *)
Definition ToTensorKey_Tensor (key_tensor : Tensor) : Result TensorKey :=
  if negb (Dtype_eqb (GetDtype key_tensor) Bool)
  then (t <- To key_tensor Int64 false ;; Ok (IndexTensor t))
  else Ok (IndexTensor key_tensor).

(** ** The type-name ladder *)

(** [static TensorKey PyHandleToTensorKey(const py::handle& item)].  The
    integer branch passes an [int64_t] to the only integer overload,
    [ToTensorKey(int)]. *)
Definition PyHandleToTensorKey (item : PyObj) : Result TensorKey :=
  let class_name := type_str item in
  if (class_name =? "<class 'int'>")%string then
    v <- cast_int item ;;
    Ok (ToTensorKey_int (int_of_int64 (int64_of_py_int v)))
  else if (class_name =? "<class 'slice'>")%string then
    s <- cast_slice item ;;
    let '(start, stop, step) := s in
    Ok (ToTensorKey_slice start stop step)
  else if (class_name =? "<class 'list'>")%string then
    l <- cast_list item ;;
    ToTensorKey_list l
  else if (class_name =? "<class 'tuple'>")%string then
    t <- cast_tuple item ;;
    ToTensorKey_tuple t
  else if (class_name =? "<class 'numpy.ndarray'>")%string then
    a <- cast_array item ;;
    ToTensorKey_array a
  else if negb (is_npos (find class_name "open3d")) &&
          negb (is_npos (find class_name "Tensor")) then
    try_catch_all
      (tensor <- cast_Tensor item ;; ToTensorKey_Tensor tensor)
      (LogError cannot_cast_message)
  else
    LogError (invalid_key_type_message class_name).

(** ** Observable events and the monad of the registered lambdas *)

(** What a call of a registered method can be observed to do: print a line
    ([utility::LogInfo]) or enter one of the storage engine's four entry
    points. *)
Inductive Event : Type :=
| EvLogInfo (msg : string)
| EvGetItem (tensor : Tensor) (tk : TensorKey)
| EvGetItem_vector (tensor : Tensor) (tks : list TensorKey)
| EvSetItem (tensor : Tensor) (tk : TensorKey) (value : Tensor)
| EvSetItem_vector (tensor : Tensor) (tks : list TensorKey) (value : Tensor).

Definition M (A : Type) : Type := list Event -> Result A * list Event.

Definition retM {A : Type} (a : A) : M A := fun tr => (Ok a, tr).

Definition bindM {A B : Type} (m : M A) (k : A -> M B) : M B :=
  fun tr =>
    match m tr with
    | (Ok a, tr') => k a tr'
    | (Throw e, tr') => (Throw e, tr')
    end.

(** A computation that only returns or throws. *)
Definition liftR {A : Type} (r : Result A) : M A := fun tr => (r, tr).

Definition emit {A : Type} (ev : Event) (r : Result A) : M A :=
  fun tr => (r, tr ++ [ev]).

Definition LogInfo (msg : string) : M unit := emit (EvLogInfo msg) (Ok tt).

(** The four engine entry points, as calls that leave an event. *)
Definition Tensor_GetItem (tensor : Tensor) (tk : TensorKey) : M Tensor :=
  emit (EvGetItem tensor tk) (GetItem tensor tk).

Definition Tensor_GetItem_vector (tensor : Tensor) (tks : list TensorKey)
    : M Tensor :=
  emit (EvGetItem_vector tensor tks) (GetItem_vector tensor tks).

Definition Tensor_SetItem (tensor : Tensor) (tk : TensorKey)
    (value : Tensor) : M Tensor :=
  emit (EvSetItem tensor tk value) (SetItem tensor tk value).

Definition Tensor_SetItem_vector (tensor : Tensor) (tks : list TensorKey)
    (value : Tensor) : M Tensor :=
  emit (EvSetItem_vector tensor tks value) (SetItem_vector tensor tks value).

(** ** The registered lambdas *)

(** [__getitem__(const Tensor&, int)]. *)
Definition getitem_int (tensor : Tensor) (key : Z) : M Tensor :=
  Tensor_GetItem tensor (ToTensorKey_int key).

(** [__getitem__(const Tensor&, const py::slice&)]. *)
Definition getitem_slice (tensor : Tensor) (key : PyObj * PyObj * PyObj)
    : M Tensor :=
  let '(start, stop, step) := key in
  Tensor_GetItem tensor (ToTensorKey_slice start stop step).

(** [__getitem__(const Tensor&, const py::array&)]. *)
Definition getitem_array (tensor : Tensor) (key : NdArray) : M Tensor :=
  bindM (liftR (ToTensorKey_array key)) (fun tk =>
  Tensor_GetItem tensor tk).

(** [__getitem__(const Tensor&, const Tensor&)]. *)
Definition getitem_Tensor (tensor : Tensor) (key : Tensor) : M Tensor :=
  bindM (LogInfo "getitem tensor") (fun _ =>
  bindM (liftR (ToTensorKey_Tensor key)) (fun tk =>
  Tensor_GetItem tensor tk)).

(** [__getitem__(const Tensor&, const py::list&)]. *)
Definition getitem_list (tensor : Tensor) (key : list PyObj) : M Tensor :=
  bindM (liftR (ToTensorKey_list key)) (fun tk =>
  Tensor_GetItem tensor tk).

(** The loop of the tuple overload: [tks.push_back(PyHandleToTensorKey(item))]
    for each item in order, starting from the keys pushed so far. *)
Fixpoint getitem_tuple_loop (key : list PyObj) (tks : list TensorKey)
    : Result (list TensorKey) :=
  match key with
  | [] => Ok tks
  | item :: rest =>
      tk <- PyHandleToTensorKey item ;;
      getitem_tuple_loop rest (tks ++ [tk])
  end.

(** [__getitem__(const Tensor&, const py::tuple&)]. *)
Definition getitem_tuple (tensor : Tensor) (key : list PyObj) : M Tensor :=
  bindM (liftR (getitem_tuple_loop key [])) (fun tks =>
  Tensor_GetItem_vector tensor tks).

(** [_getitem], [_getitem_vector], [_setitem], [_setitem_vector]. *)
Definition _getitem (tensor : Tensor) (tk : TensorKey) : M Tensor :=
  Tensor_GetItem tensor tk.

Definition _getitem_vector (tensor : Tensor) (tks : list TensorKey)
    : M Tensor :=
  Tensor_GetItem_vector tensor tks.

Definition _setitem (tensor : Tensor) (tk : TensorKey) (value : Tensor)
    : M Tensor :=
  Tensor_SetItem tensor tk value.

Definition _setitem_vector (tensor : Tensor) (tks : list TensorKey)
    (value : Tensor) : M Tensor :=
  Tensor_SetItem_vector tensor tks value.

(** ** Registration and dispatch *)

(** A registered C++ function, by the parameter types after the receiver. *)
Inductive Overload : Type :=
| Fn_int (f : Tensor -> Z -> M Tensor)
| Fn_slice (f : Tensor -> PyObj * PyObj * PyObj -> M Tensor)
| Fn_array (f : Tensor -> NdArray -> M Tensor)
| Fn_Tensor (f : Tensor -> Tensor -> M Tensor)
| Fn_list (f : Tensor -> list PyObj -> M Tensor)
| Fn_tuple (f : Tensor -> list PyObj -> M Tensor)
| Fn_TensorKey (f : Tensor -> TensorKey -> M Tensor)
| Fn_vector (f : Tensor -> list TensorKey -> M Tensor)
| Fn_TensorKey_Tensor (f : Tensor -> TensorKey -> Tensor -> M Tensor)
| Fn_vector_Tensor (f : Tensor -> list TensorKey -> Tensor -> M Tensor).

(** The methods of a bound class, in registration order. *)
Definition PyClass : Type := list (string * Overload).

(** [cls.def(name, f)]. *)
Definition def (cls : PyClass) (name : string) (f : Overload) : PyClass :=
  cls ++ [(name, f)].

(** [void pybind_core_tensor_accessor(py::class_<Tensor>& tensor)]. *)
Definition pybind_core_tensor_accessor (tensor : PyClass) : M PyClass :=
  bindM (LogInfo "pybind_core_extra") (fun _ =>
  let tensor := def tensor "__getitem__" (Fn_int getitem_int) in
  let tensor := def tensor "__getitem__" (Fn_slice getitem_slice) in
  let tensor := def tensor "__getitem__" (Fn_array getitem_array) in
  let tensor := def tensor "__getitem__" (Fn_Tensor getitem_Tensor) in
  let tensor := def tensor "__getitem__" (Fn_list getitem_list) in
  let tensor := def tensor "__getitem__" (Fn_tuple getitem_tuple) in
  let tensor := def tensor "_getitem" (Fn_TensorKey _getitem) in
  let tensor := def tensor "_getitem_vector" (Fn_vector _getitem_vector) in
  let tensor := def tensor "_setitem" (Fn_TensorKey_Tensor _setitem) in
  let tensor :=
    def tensor "_setitem_vector" (Fn_vector_Tensor _setitem_vector) in
  retM tensor).

(** The accessor's methods: what the function registers on a class that has
    no methods yet. *)
Definition accessor_methods : PyClass :=
  match pybind_core_tensor_accessor [] [] with
  | (Ok cls, _) => cls
  | (Throw _, _) => []
  end.

(** Loading a Python argument into a C++ parameter, as pybind11 does before
    it enters an overload: [None] when the argument does not have the
    parameter's type.  An [int] parameter only takes values of its range. *)
Definition option_of_result {A : Type} (r : Result A) : option A :=
  match r with
  | Ok a => Some a
  | Throw _ => None
  end.

Definition load_int (o : PyObj) : option Z :=
  match o with
  | PyInt v | PyInstance _ (HoldsInt v) =>
      if in_signed_range INT_BITS v then Some v else None
  | _ => None
  end.

Definition load_TensorKey (o : PyObj) : option TensorKey :=
  match o with
  | PyInstance _ (HoldsKey tk) => Some tk
  | _ => None
  end.

Fixpoint load_all {A : Type} (load : PyObj -> option A) (os : list PyObj)
    : option (list A) :=
  match os with
  | [] => Some []
  | o :: rest =>
      match load o, load_all load rest with
      | Some a, Some l => Some (a :: l)
      | _, _ => None
      end
  end.

(** [std::vector<TensorKey>] is loaded from any sequence of bound keys. *)
Definition load_vector (o : PyObj) : option (list TensorKey) :=
  match o with
  | PyList items | PyTuple items => load_all load_TensorKey items
  | _ => None
  end.

Definition load1 {A : Type} (load : PyObj -> option A)
    (f : A -> M Tensor) (args : list PyObj) : option (M Tensor) :=
  match args with
  | [a] => option_map f (load a)
  | _ => None
  end.

Definition load2 {A B : Type} (loadA : PyObj -> option A)
    (loadB : PyObj -> option B) (f : A -> B -> M Tensor)
    (args : list PyObj) : option (M Tensor) :=
  match args with
  | [a; b] =>
      match loadA a, loadB b with
      | Some x, Some y => Some (f x y)
      | _, _ => None
      end
  | _ => None
  end.

(** One overload tried on a receiver and arguments. *)
Definition try_overload (f : Overload) (self : Tensor) (args : list PyObj)
    : option (M Tensor) :=
  match f with
  | Fn_int f => load1 load_int (f self) args
  | Fn_slice f => load1 (fun o => option_of_result (cast_slice o)) (f self) args
  | Fn_array f => load1 (fun o => option_of_result (cast_array o)) (f self) args
  | Fn_Tensor f =>
      load1 (fun o => option_of_result (cast_Tensor o)) (f self) args
  | Fn_list f => load1 (fun o => option_of_result (cast_list o)) (f self) args
  | Fn_tuple f => load1 (fun o => option_of_result (cast_tuple o)) (f self) args
  | Fn_TensorKey f => load1 load_TensorKey (f self) args
  | Fn_vector f => load1 load_vector (f self) args
  | Fn_TensorKey_Tensor f =>
      load2 load_TensorKey (fun o => option_of_result (cast_Tensor o))
            (f self) args
  | Fn_vector_Tensor f =>
      load2 load_vector (fun o => option_of_result (cast_Tensor o))
            (f self) args
  end.

(** pybind11's dispatcher: the overloads registered under [name] are tried
    in registration order and the first that loads its arguments runs; when
    none does (or none is registered) the call is a [TypeError]. *)
Fixpoint call_method (cls : PyClass) (name : string) (self : Tensor)
    (args : list PyObj) : M Tensor :=
  match cls with
  | [] => liftR (Throw type_error)
  | (n, f) :: rest =>
      if (n =? name)%string then
        match try_overload f self args with
        | Some run => run
        | None => call_method rest name self args
        end
      else call_method rest name self args
  end.

(** The overloads a class registers under one name. *)
Definition overloads_named (cls : PyClass) (name : string) : list Overload :=
  map snd (filter (fun d => (fst d =? name)%string) cls).

(** [tensor[index]] and, where such a method is registered,
    [tensor[index] = value] on the accessor's methods.  The result is the
    one the C++ function returns or throws; the Python error indicator is
    not modelled, so for an index whose conversion leaves a Python error
    pending (an int beyond [int64_t], a slice that does not unpack) the
    calls into the engine are described and what Python then reports is
    not. *)
Definition subscript_get (self : Tensor) (index : PyObj) : M Tensor :=
  call_method accessor_methods "__getitem__" self [index].

Definition subscript_set (self : Tensor) (index value : PyObj) : M Tensor :=
  call_method accessor_methods "__setitem__" self [index; value].

(** ** The supported index items *)

(** The name rule of the ladder's native-tensor branch. *)
Definition is_native_tensor_name (class_name : string) : bool :=
  negb (is_npos (find class_name "open3d")) &&
  negb (is_npos (find class_name "Tensor")).

(** The six shapes the ladder recognises, by class name. *)
Definition recognized_class (class_name : string) : bool :=
  (class_name =? "<class 'int'>")%string
  || (class_name =? "<class 'slice'>")%string
  || (class_name =? "<class 'list'>")%string
  || (class_name =? "<class 'tuple'>")%string
  || (class_name =? "<class 'numpy.ndarray'>")%string
  || is_native_tensor_name class_name.



(** A bound [TensorKey] object of some class. *)
Definition key_object (class_name : string) (tk : TensorKey) : PyObj :=
  PyInstance class_name (HoldsKey tk).

End Model.

Arguments TensorKey : clear implicits.
Arguments TensorKey {TT}.
Arguments PyObj {TT}.
Arguments Held {TT}.
Arguments Event {TT}.
Arguments Overload {TT}.
Arguments PyClass {TT}.
Arguments M {TT} A.

(** [item] is classified to the key [tk]. *)
Definition classifies {TT : TensorTypes} {CO : Collaborators}
    (item : PyObj) (tk : TensorKey) : Prop :=
  PyHandleToTensorKey item = Ok tk.

(** ** The contract of [Tensor::To] *)

(** What the dtype normalisation relies on from the engine's cast: the
    result has the requested dtype, and a tensor that already has it is
    returned as it is. *)
Class ToContract {TT : TensorTypes} (CO : Collaborators) : Prop := {
  To_dtype : forall t d copy t', To t d copy = Ok t' -> GetDtype t' = d;
  To_same : forall t d copy, GetDtype t = d -> To t d copy = Ok t
}.

(** The normalisation rule in the spec's words: keep a Boolean selector,
    cast any other to 64-bit integer. *)
Definition normalize_selector {TT : TensorTypes} {CO : Collaborators}
    (copy : bool) (selector : Tensor) : Result Tensor :=
  match GetDtype selector with
  | Bool => Ok selector
  | _ => To selector Int64 copy
  end.


(** ** An executable instance of the collaborators

    Flat tensors of integers, enough to run the accessor on concrete index
    expressions.  It stands in for the engine in examples only. *)
Module Reference.

Record FlatTensor : Type := mkTensor {
  dtype : Dtype;
  values : list Z
}.

#[export] Instance types : TensorTypes := {
  Tensor := FlatTensor;
  NdArray := FlatTensor
}.

Definition truth (v : Z) : Z := if v =? 0 then 0 else 1.

Definition cast_values (d : Dtype) (vs : list Z) : list Z :=
  match d with
  | Bool => map truth vs
  | _ => vs
  end.

Definition to (t : FlatTensor) (d : Dtype) (copy : bool)
    : Result FlatTensor :=
  if Dtype_eqb (dtype t) d then Ok t
  else Ok (mkTensor d (cast_values d (values t))).

Fixpoint ints_of (items : list PyObj) : option (list Z) :=
  match items with
  | [] => Some []
  | PyInt v :: rest => option_map (cons v) (ints_of rest)
  | _ :: _ => None
  end.

Definition tuple_to_tensor (items : list PyObj) : Result FlatTensor :=
  match ints_of items with
  | Some vs => Ok (mkTensor Int64 vs)
  | None => Throw (collaborator_error "PyTupleToTensor: not a sequence of int")
  end.

Definition array_to_tensor (a : FlatTensor) (inplace : bool)
    : Result FlatTensor := Ok a.

Definition PY_SSIZE_T_MAX : Z := 2 ^ 63 - 1.
Definition PY_SSIZE_T_MIN : Z := - 2 ^ 63.

Definition clamp_ssize_t (v : Z) : Z :=
  Z.max PY_SSIZE_T_MIN (Z.min PY_SSIZE_T_MAX v).

Definition slice_index (o : PyObj) (default : Z) : Z :=
  match o with
  | PyInt v => clamp_ssize_t v
  | _ => default
  end.

(** CPython's unpacking of a slice whose fields are ints or [None] and
    whose step is not 0. *)
Definition slice_unpack (start stop step : PyObj) : Z * Z * Z :=
  let step' := Z.max (- PY_SSIZE_T_MAX) (slice_index step 1) in
  let start' := slice_index start (if step' <? 0 then PY_SSIZE_T_MAX else 0) in
  let stop' :=
    slice_index stop (if step' <? 0 then PY_SSIZE_T_MIN else PY_SSIZE_T_MAX) in
  (start', stop', step').

Definition out_of_range {A : Type} : Result A :=
  Throw (collaborator_error "index out of range").

Definition element (vs : list Z) (i : Z) : Result Z :=
  let n := Z.of_nat (List.length vs) in
  let i := if i <? 0 then i + n else i in
  if (0 <=? i) && (i <? n)
  then match nth_error vs (Z.to_nat i) with
       | Some v => Ok v
       | None => out_of_range
       end
  else out_of_range.

Fixpoint gather (vs : list Z) (positions : list Z) : Result (list Z) :=
  match positions with
  | [] => Ok []
  | p :: rest =>
      bindR (element vs p) (fun v =>
      bindR (gather vs rest) (fun l => Ok (v :: l)))
  end.

Fixpoint mask (vs : list Z) (flags : list Z) : list Z :=
  match vs, flags with
  | v :: vs', f :: flags' =>
      if f =? 0 then mask vs' flags' else v :: mask vs' flags'
  | _, _ => []
  end.

Definition get_item (t : FlatTensor) (tk : TensorKey) : Result FlatTensor :=
  match tk with
  | Index i =>
      bindR (element (values t) i) (fun v => Ok (mkTensor (dtype t) [v]))
  | Slice start stop step _ _ _ =>
      if step =? 1
      then Ok (mkTensor (dtype t)
                 (firstn (Z.to_nat (stop - start))
                         (skipn (Z.to_nat start) (values t))))
      else Throw (collaborator_error "unsupported step")
  | IndexTensor sel =>
      match dtype sel with
      | Bool => Ok (mkTensor (dtype t) (mask (values t) (values sel)))
      | _ => bindR (gather (values t) (values sel)) (fun vs =>
             Ok (mkTensor (dtype t) vs))
      end
  end.

Definition get_item_vector (t : FlatTensor) (tks : list TensorKey)
    : Result FlatTensor :=
  match tks with
  | [] => Ok t
  | [tk] => get_item t tk
  | _ => Throw (collaborator_error "too many indices")
  end.

Fixpoint replace_at (vs : list Z) (i : nat) (v : Z) : list Z :=
  match vs, i with
  | [], _ => []
  | _ :: vs', O => v :: vs'
  | x :: vs', S i' => x :: replace_at vs' i' v
  end.

Definition set_item (t : FlatTensor) (tk : TensorKey) (value : FlatTensor)
    : Result FlatTensor :=
  match tk, values value with
  | Index i, [v] =>
      bindR (element (values t) i) (fun _ =>
      let n := Z.of_nat (List.length (values t)) in
      let i := if i <? 0 then i + n else i in
      Ok (mkTensor (dtype t) (replace_at (values t) (Z.to_nat i) v)))
  | _, _ => Throw (collaborator_error "unsupported assignment")
  end.

Definition set_item_vector (t : FlatTensor) (tks : list TensorKey)
    (value : FlatTensor) : Result FlatTensor :=
  match tks with
  | [tk] => set_item t tk value
  | _ => Throw (collaborator_error "unsupported assignment")
  end.

#[export] Instance collaborators : Collaborators := {
  GetDtype := dtype;
  To := to;
  To_default_copy := false;
  PyTupleToTensor := tuple_to_tensor;
  PyArrayToTensor := array_to_tensor;
  PySlice_Unpack := slice_unpack;
  GetItem := get_item;
  GetItem_vector := get_item_vector;
  SetItem := set_item;
  SetItem_vector := set_item_vector
}.

(** Sample values. *)
Definition rows : FlatTensor := mkTensor Int64 [10; 20; 30; 40; 50].
Definition flags : FlatTensor := mkTensor Bool [1; 0; 1; 0; 1].
Definition narrow : FlatTensor := mkTensor Int32 [3; 4].

Definition native (t : FlatTensor) : PyObj :=
  PyInstance "<class 'open3d.pybind.core.Tensor'>" (HoldsTensor t).

Definition bound_key (tk : TensorKey) : PyObj :=
  PyInstance "<class 'open3d.pybind.core.TensorKey'>" (HoldsKey tk).

Definition text : PyObj := PyInstance "<class 'str'>" HoldsNothing.



End Reference.

(** ** Reading an event sequence *)

Section Events.
Context {TT : TensorTypes}.

(** The events that are calls into the storage engine, those among them
    that write, and the keys a call carries. *)
Definition is_engine_call (ev : Event) : bool :=
  match ev with
  | EvLogInfo _ => false
  | _ => true
  end.

Definition is_write_call (ev : Event) : bool :=
  match ev with
  | EvSetItem _ _ _ | EvSetItem_vector _ _ _ => true
  | _ => false
  end.

Definition event_keys (ev : Event) : list TensorKey :=
  match ev with
  | EvLogInfo _ => []
  | EvGetItem _ tk | EvSetItem _ tk _ => [tk]
  | EvGetItem_vector _ tks | EvSetItem_vector _ tks _ => tks
  end.

Definition submitted_keys (tr : list Event) : list TensorKey :=
  flat_map event_keys tr.

End Events.

(** ** A second instance: a cast that can fail

    As [Reference], except that a tensor of dtype [Undefined] cannot be
    cast. *)
Module Checked.

Definition to (t : Reference.FlatTensor) (d : Dtype) (copy : bool)
    : Result Reference.FlatTensor :=
  match Reference.dtype t with
  | Undefined => Throw (collaborator_error "cast of an undefined dtype")
  | _ => Reference.to t d copy
  end.

Definition collaborators : @Collaborators Reference.types :=
  @Build_Collaborators Reference.types
    Reference.dtype to false
    Reference.tuple_to_tensor Reference.array_to_tensor
    Reference.slice_unpack
    Reference.get_item Reference.get_item_vector
    Reference.set_item Reference.set_item_vector.

Definition blank : Reference.FlatTensor :=
  Reference.mkTensor Undefined [1; 2].

End Checked.

(** * Properties *)

Section Properties.
Context {TT : TensorTypes} {CO : Collaborators}.

(** ** The ladder, branch by branch *)

Lemma ladder_int (v : Z) :
  PyHandleToTensorKey (PyInt v) = Ok (Index (int_of_int64 (int64_of_py_int v))).
Proof. reflexivity. Qed.

Lemma ladder_slice (start stop step : PyObj) :
  PyHandleToTensorKey (PySlice start stop step)
  = Ok (ToTensorKey_slice start stop step).
Proof. reflexivity. Qed.

Lemma ladder_list (items : list PyObj) :
  PyHandleToTensorKey (PyList items) = ToTensorKey_list items.
Proof. reflexivity. Qed.

Lemma ladder_tuple (items : list PyObj) :
  PyHandleToTensorKey (PyTuple items) = ToTensorKey_tuple items.
Proof. reflexivity. Qed.

Lemma ladder_array (a : NdArray) :
  PyHandleToTensorKey (PyArray a) = ToTensorKey_array a.
Proof. reflexivity. Qed.

Lemma ladder_none :
  PyHandleToTensorKey PyNone = Throw (UnsupportedIndexType "<class 'NoneType'>").
Proof. reflexivity. Qed.

(** A name that passes the native-tensor rule is none of the five literal
    names tested before it. *)
Lemma native_name_not_builtin (class_name : string) :
  is_native_tensor_name class_name = true ->
  (class_name =? "<class 'int'>")%string = false /\
  (class_name =? "<class 'slice'>")%string = false /\
  (class_name =? "<class 'list'>")%string = false /\
  (class_name =? "<class 'tuple'>")%string = false /\
  (class_name =? "<class 'numpy.ndarray'>")%string = false.
Proof.
  intros H.
  repeat split;
    (apply String.eqb_neq; intros ->; vm_compute in H; discriminate H).
Qed.

Lemma ladder_native (class_name : string) (held : Held) :
  is_native_tensor_name class_name = true ->
  PyHandleToTensorKey (PyInstance class_name held)
  = try_catch_all
      (bindR (cast_Tensor (PyInstance class_name held)) ToTensorKey_Tensor)
      (LogError cannot_cast_message).
Proof.
  intros H.
  destruct (native_name_not_builtin _ H) as (E1 & E2 & E3 & E4 & E5).
  unfold PyHandleToTensorKey, type_str.
  rewrite E1, E2, E3, E4, E5.
  unfold is_native_tensor_name in H. rewrite H. reflexivity.
Qed.

Lemma ladder_unrecognized (item : PyObj) :
  recognized_class (type_str item) = false ->
  PyHandleToTensorKey item = LogError (invalid_key_type_message (type_str item)).
Proof.
  unfold recognized_class. intros H.
  apply orb_false_elim in H as [H Hnative].
  apply orb_false_elim in H as [H Harray].
  apply orb_false_elim in H as [H Htuple].
  apply orb_false_elim in H as [H Hlist].
  apply orb_false_elim in H as [Hint Hslice].
  unfold PyHandleToTensorKey. cbv zeta.
  rewrite Hint, Hslice, Hlist, Htuple, Harray.
  unfold is_native_tensor_name in Hnative. rewrite Hnative.
  reflexivity.
Qed.

(** ** The four Gather overloads share one normalisation *)

Lemma normalize_selector_unfold (copy : bool) (t : Tensor) :
  (if negb (Dtype_eqb (GetDtype t) Bool) then To t Int64 copy else Ok t)
  = normalize_selector copy t.
Proof. unfold normalize_selector. destruct (GetDtype t); reflexivity. Qed.

Lemma ToTensorKey_list_normalizes (key : list PyObj) :
  ToTensorKey_list key
  = bindR (PyTupleToTensor key) (fun t =>
    bindR (normalize_selector false t) (fun sel => Ok (IndexTensor sel))).
Proof.
  unfold ToTensorKey_list. destruct (PyTupleToTensor key); simpl; auto.
  now rewrite normalize_selector_unfold.
Qed.

Lemma ToTensorKey_tuple_normalizes (key : list PyObj) :
  ToTensorKey_tuple key
  = bindR (PyTupleToTensor key) (fun t =>
    bindR (normalize_selector false t) (fun sel => Ok (IndexTensor sel))).
Proof.
  unfold ToTensorKey_tuple. destruct (PyTupleToTensor key); simpl; auto.
  now rewrite normalize_selector_unfold.
Qed.

Lemma ToTensorKey_array_normalizes (key : NdArray) :
  ToTensorKey_array key
  = bindR (PyArrayToTensor key false) (fun t =>
    bindR (normalize_selector To_default_copy t) (fun sel =>
    Ok (IndexTensor sel))).
Proof.
  unfold ToTensorKey_array. destruct (PyArrayToTensor key false); simpl; auto.
  now rewrite normalize_selector_unfold.
Qed.

Lemma ToTensorKey_Tensor_normalizes (key_tensor : Tensor) :
  ToTensorKey_Tensor key_tensor
  = bindR (normalize_selector false key_tensor) (fun sel =>
    Ok (IndexTensor sel)).
Proof.
  unfold ToTensorKey_Tensor, normalize_selector.
  destruct (GetDtype key_tensor); reflexivity.
Qed.

(** Every key of a Gather overload is an [IndexTensor]. *)
Lemma ToTensorKey_list_gather (key : list PyObj) (tk : TensorKey) :
  ToTensorKey_list key = Ok tk ->
  exists t sel, PyTupleToTensor key = Ok t /\
                normalize_selector false t = Ok sel /\ tk = IndexTensor sel.
Proof.
  rewrite ToTensorKey_list_normalizes.
  destruct (PyTupleToTensor key) as [t|]; simpl; [|discriminate].
  destruct (normalize_selector false t) as [sel|] eqn:N; simpl; [|discriminate].
  intros [= <-]. exists t, sel. auto.
Qed.

(** ** The loop of the tuple overload *)

Lemma getitem_tuple_loop_ok (key : list PyObj) :
  forall tks r, getitem_tuple_loop key tks = Ok r ->
    exists ks, r = tks ++ ks /\ Forall2 classifies key ks.
Proof.
  induction key as [|item rest IH]; simpl; intros tks r H.
  - inversion H; subst. exists []. rewrite app_nil_r. auto.
  - destruct (PyHandleToTensorKey item) as [tk|] eqn:E; simpl in H;
      [|discriminate].
    destruct (IH _ _ H) as (ks & -> & F).
    exists (tk :: ks). rewrite <- app_assoc. split; [reflexivity|].
    constructor; assumption.
Qed.

Lemma getitem_tuple_loop_throw (key : list PyObj) :
  forall tks e, getitem_tuple_loop key tks = Throw e ->
    exists before item after ks,
      key = before ++ item :: after /\ Forall2 classifies before ks /\
      PyHandleToTensorKey item = Throw e.
Proof.
  induction key as [|item rest IH]; simpl; intros tks e H; [discriminate|].
  destruct (PyHandleToTensorKey item) as [tk|e'] eqn:E; simpl in H.
  - destruct (IH _ _ H) as (before & bad & after & ks & -> & F & B).
    exists (item :: before), bad, after, (tk :: ks).
    split; [reflexivity|]. split; [constructor; assumption|assumption].
  - inversion H; subst. exists [], item, rest, []. repeat split; auto.
Qed.

Lemma getitem_tuple_loop_app (before : list PyObj) (ks : list TensorKey) :
  Forall2 classifies before ks ->
  forall rest tks,
    getitem_tuple_loop (before ++ rest) tks
    = getitem_tuple_loop rest (tks ++ ks).
Proof.
  induction 1 as [|item tk before ks Hc _ IH]; intros rest tks; simpl.
  - now rewrite app_nil_r.
  - unfold classifies in Hc. rewrite Hc. simpl.
    rewrite IH, <- app_assoc. reflexivity.
Qed.

(** Position [i] of the keys is the classification of item [i]. *)
Lemma classified_positions (key : list PyObj) (tks : list TensorKey) :
  Forall2 classifies key tks ->
  forall i item, nth_error key i = Some item ->
    exists tk, nth_error tks i = Some tk /\ classifies item tk.
Proof.
  induction 1 as [|x tk key' tks' Hx _ IH]; intros i item Hi.
  - destruct i; discriminate Hi.
  - destruct i as [|i]; simpl in *.
    + inversion Hi; subst. eauto.
    + eauto.
Qed.

(** ** Dispatch of a subscript *)

Lemma subscript_get_list (self : Tensor) (items : list PyObj) :
  subscript_get self (PyList items) = getitem_list self items.
Proof. reflexivity. Qed.

Lemma subscript_get_tuple (self : Tensor) (items : list PyObj) :
  subscript_get self (PyTuple items) = getitem_tuple self items.
Proof. reflexivity. Qed.

Lemma subscript_get_slice (self : Tensor) (start stop step : PyObj) :
  subscript_get self (PySlice start stop step)
  = getitem_slice self (start, stop, step).
Proof. reflexivity. Qed.

Lemma subscript_get_array (self : Tensor) (a : NdArray) :
  subscript_get self (PyArray a) = getitem_array self a.
Proof. reflexivity. Qed.

Lemma subscript_get_tensor (self : Tensor) (class_name : string) (t : Tensor) :
  subscript_get self (PyInstance class_name (HoldsTensor t))
  = getitem_Tensor self t.
Proof. reflexivity. Qed.

Lemma subscript_get_int (self : Tensor) (v : Z) :
  subscript_get self (PyInt v)
  = if in_signed_range INT_BITS v then getitem_int self v
    else liftR (Throw type_error).
Proof.
  unfold subscript_get.
  change (call_method accessor_methods "__getitem__" self [PyInt v])
    with (match option_map (getitem_int self) (load_int (PyInt v)) with
          | Some run => run
          | None => liftR (Throw type_error)
          end).
  unfold load_int. destruct (in_signed_range INT_BITS v); reflexivity.
Qed.

(** ** Machine integers *)

Lemma wrap_signed_small (v : Z) :
  in_signed_range INT_BITS v = true -> int_of_int64 (int64_of_py_int v) = v.
Proof.
  unfold in_signed_range, INT_BITS. intros H.
  apply andb_prop in H as [Hlo Hhi].
  apply Z.leb_le in Hlo. apply Z.ltb_lt in Hhi.
  change (2 ^ (32 - 1)) with 2147483648 in *.
  assert (E : int64_of_py_int v = v).
  { unfold int64_of_py_int, in_signed_range.
    replace (- 2 ^ (64 - 1) <=? v) with true
      by (symmetry; apply Z.leb_le;
          change (2 ^ (64 - 1)) with 9223372036854775808; lia).
    replace (v <? 2 ^ (64 - 1)) with true
      by (symmetry; apply Z.ltb_lt;
          change (2 ^ (64 - 1)) with 9223372036854775808; lia).
    reflexivity. }
  rewrite E. unfold int_of_int64, wrap_signed, INT_BITS.
  change (2 ^ (32 - 1)) with 2147483648. change (2 ^ 32) with 4294967296.
  rewrite Z.mod_small; lia.
Qed.


Lemma in_range_ints_classify (vs : list Z) :
  Forall (fun v => in_signed_range INT_BITS v = true) vs ->
  Forall2 classifies (map PyInt vs) (map Index vs).
Proof.
  induction 1 as [|v vs Hv _ IH]; simpl; constructor; [|exact IH].
  unfold classifies. rewrite ladder_int, (wrap_signed_small _ Hv).
  reflexivity.
Qed.

(** ** Composition of the top-level index *)

(** C1: a top-level list is converted as a whole by the sequence converter
    and its normalised selector enters the single-key [GetItem] as one
    [IndexTensor] key; when the converter or the cast throws, that error
    leaves and the engine is not entered.  A top-level tuple of n items is
    classified item by item, in order, and the n keys enter the multi-key
    [GetItem] in the positions of their items (a tuple of ints of the range
    of [int] gives the [Index] keys of its values); when an item throws,
    its error leaves and the engine is not entered. *)
Theorem list_tuple_asymmetry (self : Tensor) (items : list PyObj)
    (tr : list Event) :
  (forall t sel,
      PyTupleToTensor items = Ok t ->
      normalize_selector false t = Ok sel ->
      subscript_get self (PyList items) tr
      = (GetItem self (IndexTensor sel),
         tr ++ [EvGetItem self (IndexTensor sel)]))
  /\
  (forall e,
      PyTupleToTensor items = Throw e ->
      subscript_get self (PyList items) tr = (Throw e, tr))
  /\
  (forall t e,
      PyTupleToTensor items = Ok t ->
      normalize_selector false t = Throw e ->
      subscript_get self (PyList items) tr = (Throw e, tr))
  /\
  (forall tks,
      Forall2 classifies items tks ->
      List.length tks = List.length items /\
      snd (subscript_get self (PyTuple items) tr)
      = tr ++ [EvGetItem_vector self tks])
  /\
  (forall vs,
      items = map PyInt vs ->
      Forall (fun v => in_signed_range INT_BITS v = true) vs ->
      subscript_get self (PyTuple items) tr
      = (GetItem_vector self (map Index vs),
         tr ++ [EvGetItem_vector self (map Index vs)]))
  /\
  (forall before item after ks e,
      items = before ++ item :: after ->
      Forall2 classifies before ks ->
      PyHandleToTensorKey item = Throw e ->
      subscript_get self (PyTuple items) tr = (Throw e, tr)).
Proof.
  assert (L : subscript_get self (PyList items) tr
              = match bindR (PyTupleToTensor items) (fun t =>
                        bindR (normalize_selector false t) (fun sel =>
                        Ok (IndexTensor sel))) with
                | Ok tk => (GetItem self tk, tr ++ [EvGetItem self tk])
                | Throw e => (Throw e, tr)
                end).
  { rewrite subscript_get_list. unfold getitem_list, bindM, liftR.
    rewrite ToTensorKey_list_normalizes. reflexivity. }
  assert (T : forall tks, getitem_tuple_loop items [] = Ok tks ->
              subscript_get self (PyTuple items) tr
              = (GetItem_vector self tks,
                 tr ++ [EvGetItem_vector self tks])).
  { intros tks E. rewrite subscript_get_tuple.
    unfold getitem_tuple, bindM, liftR. rewrite E. reflexivity. }
  repeat split.
  - intros t sel Ht Hs. rewrite L, Ht. simpl. rewrite Hs. reflexivity.
  - intros e He. rewrite L, He. reflexivity.
  - intros t e Ht He. rewrite L, Ht. simpl. rewrite He. reflexivity.
  - symmetry. eapply Forall2_length; eassumption.
  - rewrite (T tks); [reflexivity|].
    rewrite <- (app_nil_r items), (getitem_tuple_loop_app _ _ H).
    reflexivity.
  - intros vs -> R. apply T.
    pose proof (in_range_ints_classify _ R) as F.
    rewrite <- (app_nil_r (map PyInt vs)), (getitem_tuple_loop_app _ _ F).
    reflexivity.
  - intros before item after ks e -> F B. rewrite subscript_get_tuple.
    unfold getitem_tuple, bindM, liftR.
    rewrite (getitem_tuple_loop_app _ _ F). simpl. rewrite B. reflexivity.
Qed.


(** ** The write entry points *)

Lemma load_all_key_objects (class_name : string) (tks : list TensorKey) :
  load_all load_TensorKey (map (key_object class_name) tks) = Some tks.
Proof.
  induction tks as [|tk tks IH]; simpl; [reflexivity|].
  now rewrite IH.
Qed.

Lemma call_getitem_vector (self : Tensor) (keys : list PyObj)
    (tks : list TensorKey) (tr : list Event) :
  load_all load_TensorKey keys = Some tks ->
  call_method accessor_methods "_getitem_vector" self [PyList keys] tr
  = (GetItem_vector self tks, tr ++ [EvGetItem_vector self tks]).
Proof.
  intros H.
  change (call_method accessor_methods "_getitem_vector" self [PyList keys])
    with (match option_map (_getitem_vector self)
                  (load_all load_TensorKey keys) with
          | Some run => run
          | None => liftR (Throw type_error)
          end).
  rewrite H. reflexivity.
Qed.

Lemma call_setitem_vector (self : Tensor) (keys : list PyObj)
    (tks : list TensorKey) (class_name : string) (value : Tensor)
    (tr : list Event) :
  load_all load_TensorKey keys = Some tks ->
  call_method accessor_methods "_setitem_vector" self
    [PyList keys; PyInstance class_name (HoldsTensor value)] tr
  = (SetItem_vector self tks value, tr ++ [EvSetItem_vector self tks value]).
Proof.
  intros H.
  change (call_method accessor_methods "_setitem_vector" self
            [PyList keys; PyInstance class_name (HoldsTensor value)])
    with (match
            match load_all load_TensorKey keys with
            | Some x => Some (_setitem_vector self x value)
            | None => None
            end
          with
          | Some run => run
          | None => liftR (Throw type_error)
          end).
  rewrite H. reflexivity.
Qed.

(** C3 (amended): the accessor registers no [__setitem__], so a subscript
    assignment reaches none of its methods.  Writes go through [_setitem]
    and [_setitem_vector], which take keys that are already constructed and
    hand them unchanged to [SetItem], as [_getitem] and [_getitem_vector]
    hand them to [GetItem]: read and write differ in the engine call only,
    and neither runs the classifier. *)
Theorem setitem_forwards_keys (self value : Tensor) (tk : TensorKey)
    (tks : list TensorKey) (key_class value_class : string)
    (tr : list Event) :
  overloads_named accessor_methods "__setitem__" = [] /\
  (forall index v, subscript_set self index v tr = (Throw type_error, tr)) /\
  call_method accessor_methods "_getitem" self [key_object key_class tk] tr
  = (GetItem self tk, tr ++ [EvGetItem self tk]) /\
  call_method accessor_methods "_setitem" self
    [key_object key_class tk; PyInstance value_class (HoldsTensor value)] tr
  = (SetItem self tk value, tr ++ [EvSetItem self tk value]) /\
  call_method accessor_methods "_getitem_vector" self
    [PyList (map (key_object key_class) tks)] tr
  = (GetItem_vector self tks, tr ++ [EvGetItem_vector self tks]) /\
  call_method accessor_methods "_setitem_vector" self
    [PyList (map (key_object key_class) tks);
     PyInstance value_class (HoldsTensor value)] tr
  = (SetItem_vector self tks value, tr ++ [EvSetItem_vector self tks value]).
Proof.
  split; [reflexivity|]. split; [intros; reflexivity|].
  split; [reflexivity|]. split; [reflexivity|]. split.
  - apply call_getitem_vector, load_all_key_objects.
  - apply call_setitem_vector, load_all_key_objects.
Qed.

(** ** Dtype normalisation *)

Lemma normalize_selector_bool (copy : bool) (t : Tensor) :
  GetDtype t = Bool -> normalize_selector copy t = Ok t.
Proof. unfold normalize_selector. now intros ->. Qed.

Lemma normalize_selector_cast (copy : bool) (t : Tensor) :
  GetDtype t <> Bool -> normalize_selector copy t = To t Int64 copy.
Proof.
  unfold normalize_selector. destruct (GetDtype t); congruence.
Qed.

Lemma normalize_selector_idempotent (contract : ToContract CO)
    (copy copy' : bool) (t sel : Tensor) :
  normalize_selector copy t = Ok sel ->
  normalize_selector copy' sel = Ok sel.
Proof.
  intros H. destruct (Dtype_eqb (GetDtype t) Bool) eqn:E.
  - assert (B : GetDtype t = Bool) by (destruct (GetDtype t); easy).
    rewrite (normalize_selector_bool _ _ B) in H. inversion H; subst.
    now apply normalize_selector_bool.
  - assert (B : GetDtype t <> Bool) by (intros B; rewrite B in E; easy).
    rewrite (normalize_selector_cast _ _ B) in H.
    pose proof (To_dtype _ _ _ _ H) as D.
    rewrite normalize_selector_cast by (rewrite D; discriminate).
    now apply To_same.
Qed.

(** C4: each of the four Gather overloads (list, tuple met as an item,
    numpy array, native tensor) wraps the selector normalised by one rule: a
    Boolean selector as it is, any other cast to [Int64].  Under the
    contract of [Tensor::To], normalising a Boolean selector returns it, a
    normalised non-Boolean selector has dtype [Int64], and normalising a
    normalised selector returns it again. *)
Theorem gather_dtype_normalization (contract : ToContract CO) :
  (forall key, ToTensorKey_list key
     = bindR (PyTupleToTensor key) (fun t =>
       bindR (normalize_selector false t) (fun sel => Ok (IndexTensor sel))))
  /\
  (forall key, ToTensorKey_tuple key
     = bindR (PyTupleToTensor key) (fun t =>
       bindR (normalize_selector false t) (fun sel => Ok (IndexTensor sel))))
  /\
  (forall key, ToTensorKey_array key
     = bindR (PyArrayToTensor key false) (fun t =>
       bindR (normalize_selector To_default_copy t) (fun sel =>
       Ok (IndexTensor sel))))
  /\
  (forall key, ToTensorKey_Tensor key
     = bindR (normalize_selector false key) (fun sel => Ok (IndexTensor sel)))
  /\
  (forall copy t, GetDtype t = Bool -> normalize_selector copy t = Ok t)
  /\
  (forall copy t, GetDtype t <> Bool ->
     normalize_selector copy t = To t Int64 copy)
  /\
  (forall copy copy' t sel,
     GetDtype t <> Bool -> normalize_selector copy t = Ok sel ->
     GetDtype sel = Int64 /\ normalize_selector copy' sel = Ok sel)
  /\
  (forall t sel,
     ToTensorKey_Tensor t = Ok (IndexTensor sel) ->
     ToTensorKey_Tensor sel = Ok (IndexTensor sel)).
Proof.
  split; [exact ToTensorKey_list_normalizes|].
  split; [exact ToTensorKey_tuple_normalizes|].
  split; [exact ToTensorKey_array_normalizes|].
  split; [exact ToTensorKey_Tensor_normalizes|].
  split; [exact normalize_selector_bool|].
  split; [exact normalize_selector_cast|].
  split.
  - intros copy copy' t sel B H. split.
    + rewrite (normalize_selector_cast _ _ B) in H.
      exact (To_dtype _ _ _ _ H).
    + exact (normalize_selector_idempotent contract _ _ _ _ H).
  - intros t sel H. rewrite ToTensorKey_Tensor_normalizes in *.
    destruct (normalize_selector false t) as [s|] eqn:N; simpl in H;
      [|discriminate].
    inversion H; subst.
    now rewrite (normalize_selector_idempotent contract _ _ _ _ N).
Qed.

(** ** Slices *)

Lemma PyNone_Check_true (o : PyObj) : PyNone_Check o = true <-> o = PyNone.
Proof. destruct o; simpl; split; intros H; congruence. Qed.

(** C5: whatever numbers the slice unpacker substitutes, the three flags of
    the [Slice] key are the three [None] tests on the fields the caller
    gave: a flag is true exactly when that field is [None].  For
    [slice(None, 5, None)] the flags are true, false, true. *)
Theorem slice_default_flags (key_start key_stop key_step : PyObj) :
  (exists start stop step,
      ToTensorKey_slice key_start key_stop key_step
      = Slice start stop step (PyNone_Check key_start)
              (PyNone_Check key_stop) (PyNone_Check key_step))
  /\
  (PyNone_Check key_start = true <-> key_start = PyNone) /\
  (PyNone_Check key_stop = true <-> key_stop = PyNone) /\
  (PyNone_Check key_step = true <-> key_step = PyNone) /\
  (exists start stop step,
      ToTensorKey_slice PyNone (PyInt 5) PyNone
      = Slice start stop step true false true).
Proof.
  unfold ToTensorKey_slice.
  split.
  - destruct (PySlice_Unpack key_start key_stop key_step) as [[b e] s].
    eauto.
  - repeat split; try (apply PyNone_Check_true; assumption).
    destruct (PySlice_Unpack PyNone (PyInt 5) PyNone) as [[b e] s]. eauto.
Qed.

(** ** Failures of the ladder *)

Lemma message_names_class (class_name : string) :
  exists before after,
    invalid_key_type_message class_name
    = (before ++ class_name ++ after)%string.
Proof.
  exists "PyHandleToTensorKey has invlaid key type ", ".". reflexivity.
Qed.

Lemma conversion_error_distinct (class_name : string) :
  KeyConversionError <> UnsupportedIndexType class_name.
Proof.
  unfold KeyConversionError, UnsupportedIndexType, cannot_cast_message,
    invalid_key_type_message. simpl. intros H. inversion H.
Qed.

(** C6: an item whose class is none of the six the ladder recognises makes
    [PyHandleToTensorKey] raise the error whose message contains that class
    name; no key is returned. *)
Theorem unsupported_type_fails (item : PyObj) :
  recognized_class (type_str item) = false ->
  PyHandleToTensorKey item = Throw (UnsupportedIndexType (type_str item)) /\
  (exists before after,
      invalid_key_type_message (type_str item)
      = (before ++ type_str item ++ after)%string) /\
  (forall tk, PyHandleToTensorKey item <> Ok tk).
Proof.
  intros H. rewrite (ladder_unrecognized _ H).
  split; [reflexivity|]. split; [apply message_names_class|].
  intros tk. discriminate.
Qed.

(** C9: an item whose class name contains both "open3d" and "Tensor" but
    which cannot be cast to a [Tensor] makes [PyHandleToTensorKey] raise the
    cast failure, an error different from every unsupported-type error; no
    key is returned. *)
Theorem tensor_cast_failure (item : PyObj) (e : Exception) :
  is_native_tensor_name (type_str item) = true ->
  cast_Tensor item = Throw e ->
  PyHandleToTensorKey item = Throw KeyConversionError /\
  (forall class_name, KeyConversionError <> UnsupportedIndexType class_name) /\
  (forall tk, PyHandleToTensorKey item <> Ok tk).
Proof.
  intros N C.
  assert (E : PyHandleToTensorKey item = Throw KeyConversionError).
  { destruct item; try (vm_compute in N; discriminate N).
    simpl in N. rewrite (ladder_native _ _ N), C. reflexivity. }
  rewrite E. split; [reflexivity|].
  split; [exact conversion_error_distinct|]. intros tk. discriminate.
Qed.

(** ** The two classification paths *)




Lemma subscript_get_intlike (self : Tensor) (class_name : string) (v : Z) :
  subscript_get self (PyInstance class_name (HoldsInt v))
  = if in_signed_range INT_BITS v then getitem_int self v
    else liftR (Throw type_error).
Proof.
  unfold subscript_get.
  change (call_method accessor_methods "__getitem__" self
            [PyInstance class_name (HoldsInt v)])
    with (match option_map (getitem_int self)
                  (load_int (PyInstance class_name (HoldsInt v))) with
          | Some run => run
          | None => liftR (Throw type_error)
          end).
  unfold load_int. destruct (in_signed_range INT_BITS v); reflexivity.
Qed.


End Properties.

(** * Further properties of the accessor *)

Section MoreProperties.
Context {TT : TensorTypes} {CO : Collaborators}.

(** ** The name rule of the native-tensor branch *)

Lemma substring_at_prefix (pat post : string) :
  substring 0 (String.length pat) (pat ++ post) = pat.
Proof.
  induction pat as [|c pat IH]; simpl.
  - destruct post; reflexivity.
  - now rewrite IH.
Qed.

Lemma substring_after (pre pat post : string) :
  substring (String.length pre) (String.length pat) (pre ++ pat ++ post) = pat.
Proof.
  induction pre as [|c pre IH]; simpl; [apply substring_at_prefix|exact IH].
Qed.

Lemma find_in_the_middle (pre pat post : string) :
  pat <> "" -> find (pre ++ pat ++ post) pat <> None.
Proof.
  unfold find. intros Hne Hnone.
  apply (index_correct3 0 (String.length pre) pat _ Hnone Hne (Nat.le_0_l _)).
  apply substring_after.
Qed.

Lemma prefix_of_substring (len : nat) :
  forall s p, substring 0 len s = p -> String.length p = len ->
    exists post, s = (p ++ post)%string.
Proof.
  induction len as [|len IH]; intros s p H L.
  - destruct p; [|discriminate L]. exists s. reflexivity.
  - destruct s as [|c s]; simpl in H.
    + subst p. discriminate L.
    + subst p. simpl in L. injection L as L.
      destruct (IH s _ eq_refl L) as [post E].
      exists post. simpl. now rewrite <- E.
Qed.

Lemma split_at_substring (m : nat) :
  forall len s p, substring m len s = p -> String.length p = len ->
    exists pre post, s = (pre ++ p ++ post)%string.
Proof.
  induction m as [|m IH]; intros len s p H L.
  - destruct (prefix_of_substring len s p H L) as [post E].
    exists "", post. exact E.
  - destruct s as [|c s]; simpl in H.
    + subst p. exists "", "". reflexivity.
    + destruct (IH len s p H L) as (pre & post & E).
      exists (String c pre), post. simpl. now rewrite E.
Qed.

Lemma find_gives_occurrence (s pat : string) :
  is_npos (find s pat) = false ->
  exists pre post, s = (pre ++ pat ++ post)%string.
Proof.
  unfold find. destruct (index 0 pat s) as [m|] eqn:E; [intros _|discriminate].
  apply (split_at_substring m (String.length pat)); [|reflexivity].
  exact (index_correct1 _ _ _ _ E).
Qed.

(** The test of the native-tensor branch holds exactly when both words
    occur in the class name. *)
Lemma native_name_rule_is_substring_test (class_name : string) :
  is_native_tensor_name class_name = true <->
  (exists pre post, class_name = (pre ++ "open3d" ++ post)%string) /\
  (exists pre post, class_name = (pre ++ "Tensor" ++ post)%string).
Proof.
  unfold is_native_tensor_name. rewrite andb_true_iff, !negb_true_iff.
  split.
  - intros [Ho Ht]. split; apply find_gives_occurrence; assumption.
  - intros [(a & b & Eo) (c & d & Et)]. split.
    + rewrite Eo. destruct (find _ _) eqn:F; [reflexivity|].
      exfalso. revert F. apply find_in_the_middle. discriminate.
    + rewrite Et. destruct (find _ _) eqn:F; [reflexivity|].
      exfalso. revert F. apply find_in_the_middle. discriminate.
Qed.

(** Without the two words, the ladder returns a key for an object of
    another class only through the int branch, and never raises the cast
    message. *)
Lemma ladder_outside_name_rule (class_name : string) (held : Held) :
  is_native_tensor_name class_name = false ->
  (forall k, PyHandleToTensorKey (PyInstance class_name held) = Ok k ->
     exists v, held = HoldsInt v) /\
  PyHandleToTensorKey (PyInstance class_name held) <> Throw KeyConversionError.
Proof.
  intros N. unfold PyHandleToTensorKey, type_str.
  destruct (class_name =? "<class 'int'>")%string.
  { destruct held as [t|k'| |v]; simpl; split; try discriminate; eauto. }
  repeat match goal with
         | |- context [if (class_name =? ?lit)%string then _ else _] =>
             destruct (class_name =? lit)%string;
             [simpl; split; discriminate|]
         end.
  unfold is_native_tensor_name in N. rewrite N.
  split; [discriminate|].
  intros H. apply (conversion_error_distinct class_name).
  unfold LogError in H. unfold UnsupportedIndexType. congruence.
Qed.

(** X5: inside a tuple, the text of the class decides alone what happens
    to an object of another class than the built-in ones.  A bound tensor
    whose conversion succeeds is classified to its key exactly when
    "open3d" and "Tensor" both occur in its class name, anywhere and in
    either order; an object that is not a tensor (a bound [TensorKey], for
    one) gets the cast message exactly under the same condition. *)
Theorem class_text_decides_tensor_branch (class_name : string)
    (held : Held) (t : Tensor) (k : TensorKey) :
  (ToTensorKey_Tensor t = Ok k ->
   (PyHandleToTensorKey (PyInstance class_name (HoldsTensor t)) = Ok k <->
    (exists pre post, class_name = (pre ++ "open3d" ++ post)%string) /\
    (exists pre post, class_name = (pre ++ "Tensor" ++ post)%string)))
  /\
  ((forall t', held <> HoldsTensor t') ->
   (PyHandleToTensorKey (PyInstance class_name held)
    = Throw KeyConversionError <->
    (exists pre post, class_name = (pre ++ "open3d" ++ post)%string) /\
    (exists pre post, class_name = (pre ++ "Tensor" ++ post)%string))).
Proof.
  rewrite <- native_name_rule_is_substring_test. split.
  - intros K. split.
    + intros H. destruct (is_native_tensor_name class_name) eqn:N;
        [reflexivity|].
      destruct (ladder_outside_name_rule class_name (HoldsTensor t) N)
        as [O _].
      destruct (O _ H) as [v E]. discriminate E.
    + intros N. rewrite (ladder_native _ _ N). simpl. rewrite K.
      reflexivity.
  - intros NT. split.
    + intros H. destruct (is_native_tensor_name class_name) eqn:N;
        [reflexivity|].
      destruct (ladder_outside_name_rule class_name held N) as [_ O].
      contradiction.
    + intros N. rewrite (ladder_native _ _ N).
      destruct held as [t'| | |]; simpl; try reflexivity.
      now destruct (NT t').
Qed.

(** ** Scalar keys *)

Lemma int_of_int64_in_range (v : Z) :
  in_signed_range INT_BITS (int_of_int64 v) = true.
Proof.
  unfold in_signed_range, int_of_int64, wrap_signed, INT_BITS.
  change (2 ^ (32 - 1)) with 2147483648. change (2 ^ 32) with 4294967296.
  pose proof (Z.mod_pos_bound (v + 2147483648) 4294967296 eq_refl) as B.
  apply andb_true_intro. split; [apply Z.leb_le|apply Z.ltb_lt]; lia.
Qed.

Lemma int_of_int64_congruent (v : Z) :
  (int_of_int64 v - v) mod 2 ^ INT_BITS = 0.
Proof.
  unfold int_of_int64, wrap_signed, INT_BITS.
  change (2 ^ (32 - 1)) with 2147483648. change (2 ^ 32) with 4294967296.
  rewrite (Z.mod_eq (v + 2147483648) 4294967296) by discriminate.
  replace (v + 2147483648 - 4294967296 * ((v + 2147483648) / 4294967296)
           - 2147483648 - v)
    with (- ((v + 2147483648) / 4294967296) * 4294967296) by lia.
  apply Z.mod_mul. discriminate.
Qed.

Lemma int64_of_py_int_small (v : Z) :
  in_signed_range 64 v = true -> int64_of_py_int v = v.
Proof. unfold int64_of_py_int. now intros ->. Qed.

(** What the ladder can return, branch by branch. *)
Lemma ladder_inversion (item : PyObj) (tk : TensorKey) :
  classifies item tk ->
  (exists v,
      cast_int item = Ok v /\ tk = Index (int_of_int64 (int64_of_py_int v)))
  \/ (exists start stop step,
         item = PySlice start stop step /\
         tk = ToTensorKey_slice start stop step)
  \/ (exists copy t sel,
         normalize_selector copy t = Ok sel /\ tk = IndexTensor sel).
Proof.
  unfold classifies.
  assert (G : forall r : Result Tensor, forall copy,
             bindR r (fun t =>
               bindR (normalize_selector copy t)
                     (fun sel => Ok (IndexTensor sel))) = Ok tk ->
             exists copy t sel,
               normalize_selector copy t = Ok sel /\ tk = IndexTensor sel).
  { intros [t|] copy; simpl; [|discriminate].
    destruct (normalize_selector copy t) as [sel|] eqn:N; simpl;
      [|discriminate].
    intros [= <-]. exists copy, t, sel. auto. }
  destruct item as [|v|start stop step|items|items|a|class_name held].
  - rewrite ladder_none. discriminate.
  - rewrite ladder_int. intros [= <-]. left. exists v.
    split; reflexivity.
  - rewrite ladder_slice. intros [= <-]. right. left. eauto 6.
  - rewrite ladder_list, ToTensorKey_list_normalizes. intros H.
    right. right. eapply G; eauto.
  - rewrite ladder_tuple, ToTensorKey_tuple_normalizes. intros H.
    right. right. eapply G; eauto.
  - rewrite ladder_array, ToTensorKey_array_normalizes. intros H.
    right. right. eapply G; eauto.
  - unfold PyHandleToTensorKey, type_str.
    destruct (class_name =? "<class 'int'>")%string.
    { destruct held as [t|k| |v]; simpl; try discriminate.
      intros [= <-]. left. exists v. split; reflexivity. }
    repeat match goal with
           | |- context [if (class_name =? ?lit)%string then _ else _] =>
               destruct (class_name =? lit)%string;
               [simpl; discriminate|]
           end.
    destruct (_ && _); [|discriminate].
    destruct held as [t| | |]; simpl; try discriminate.
    rewrite ToTensorKey_Tensor_normalizes.
    intros H. right. right. apply (G (Ok t) false).
    simpl. destruct (normalize_selector false t); simpl in *;
      [exact H|discriminate H].
Qed.

(** X2: every scalar key that the ladder returns, for whatever item, holds
    a value of the range of [int]: no [Index] key outside 32 bits leaves
    [PyHandleToTensorKey]. *)
Theorem ladder_index_in_int_range (item : PyObj) (i : Z) :
  classifies item (Index i) -> in_signed_range INT_BITS i = true.
Proof.
  intros H. destruct (ladder_inversion _ _ H)
    as [(v & _ & E)|[(start & stop & step & _ & E)|(c & t & sel & _ & E)]].
  - injection E as ->. apply int_of_int64_in_range.
  - unfold ToTensorKey_slice in E.
    destruct (PySlice_Unpack start stop step) as [[b e] s]. discriminate E.
  - discriminate E.
Qed.

(** X3: for an int item that fits [int64_t], the ladder's key is the value
    reduced modulo 2^32 into the range of [int]; it is the caller's value
    exactly when that value is in the range of [int]. *)
Theorem ladder_index_is_value_mod_2_32 (v : Z) :
  in_signed_range 64 v = true ->
  exists i,
    classifies (PyInt v) (Index i) /\
    (i - v) mod 2 ^ INT_BITS = 0 /\
    in_signed_range INT_BITS i = true /\
    (i = v <-> in_signed_range INT_BITS v = true).
Proof.
  intros H. exists (int_of_int64 v). unfold classifies.
  rewrite ladder_int, (int64_of_py_int_small _ H).
  split; [reflexivity|]. split; [apply int_of_int64_congruent|].
  split; [apply int_of_int64_in_range|]. split.
  - intros E. rewrite <- E. apply int_of_int64_in_range.
  - intros R. rewrite <- (wrap_signed_small _ R) at 2.
    now rewrite (int64_of_py_int_small _ H).
Qed.

(** ** Slices *)

Lemma int64_of_ssize_t_small (v : Z) :
  in_signed_range 64 v = true -> int64_of_ssize_t v = v.
Proof.
  unfold in_signed_range, int64_of_ssize_t, wrap_signed. intros H.
  apply andb_prop in H as [Hlo Hhi].
  apply Z.leb_le in Hlo. apply Z.ltb_lt in Hhi.
  change (2 ^ (64 - 1)) with 9223372036854775808 in *.
  change (2 ^ 64) with 18446744073709551616.
  rewrite Z.mod_small; lia.
Qed.

(** X7: the numbers the slice unpacker yields reach the [Slice] key at 64
    bits, unchanged; unlike a scalar index, a slice bound beyond 32 bits is
    not truncated, alone or inside a tuple. *)
Theorem slice_bounds_not_truncated (key_start key_stop key_step : PyObj)
    (start stop step : Z) :
  PySlice_Unpack key_start key_stop key_step = (start, stop, step) ->
  in_signed_range 64 start = true ->
  in_signed_range 64 stop = true ->
  in_signed_range 64 step = true ->
  PyHandleToTensorKey (PySlice key_start key_stop key_step)
  = Ok (Slice start stop step (PyNone_Check key_start)
              (PyNone_Check key_stop) (PyNone_Check key_step)).
Proof.
  intros U Ha Hb Hc. rewrite ladder_slice. unfold ToTensorKey_slice.
  rewrite U, !int64_of_ssize_t_small by assumption. reflexivity.
Qed.

(** ** The loop of the tuple overload, continued *)

(** X1: the items of a tuple are classified from left to right and the
    first one that fails decides the error: whatever follows it, valid or
    not, the subscript raises that item's error and the engine is not
    entered. *)
Theorem first_failure_decides (self : Tensor) (before after : list PyObj)
    (ks : list TensorKey) (item : PyObj) (e : Exception) (tr : list Event) :
  Forall2 classifies before ks ->
  PyHandleToTensorKey item = Throw e ->
  subscript_get self (PyTuple (before ++ item :: after)) tr = (Throw e, tr).
Proof.
  intros F T. rewrite subscript_get_tuple.
  unfold getitem_tuple, bindM, liftR.
  rewrite (getitem_tuple_loop_app _ _ F). simpl. rewrite T. reflexivity.
Qed.

(** X8: the key of an item does not depend on its position or on its
    neighbours: the keys of a concatenated tuple are the keys of the first
    part followed by the keys of the second, submitted in one multi-key
    call. *)
Theorem tuple_keys_concatenate (self : Tensor) (left right : list PyObj)
    (kl kr : list TensorKey) (tr : list Event) :
  getitem_tuple_loop left [] = Ok kl ->
  getitem_tuple_loop right [] = Ok kr ->
  getitem_tuple_loop (left ++ right) [] = Ok (kl ++ kr) /\
  subscript_get self (PyTuple (left ++ right)) tr
  = (GetItem_vector self (kl ++ kr),
     tr ++ [EvGetItem_vector self (kl ++ kr)]).
Proof.
  intros L R.
  destruct (getitem_tuple_loop_ok _ _ _ L) as (ks & -> & Fl).
  destruct (getitem_tuple_loop_ok _ _ _ R) as (ks' & -> & Fr).
  simpl.
  assert (E : getitem_tuple_loop (left ++ right) [] = Ok (ks ++ ks')).
  { rewrite (getitem_tuple_loop_app _ _ Fl). simpl.
    rewrite <- (app_nil_r right), (getitem_tuple_loop_app _ _ Fr).
    reflexivity. }
  split; [exact E|].
  rewrite subscript_get_tuple. unfold getitem_tuple, bindM, liftR.
  rewrite E. reflexivity.
Qed.

(** ** Errors of the native-tensor branch *)

(** X4: inside a tuple, an error raised while a recognised tensor item is
    turned into a key (the cast to [Int64]) is caught by the branch's
    [catch (...)] and replaced by the fixed cast message; the same tensor
    alone lets the original error through, after the console line. *)
Theorem tensor_branch_masks_errors (self t : Tensor) (class_name : string)
    (e : Exception) (tr : list Event) :
  is_native_tensor_name class_name = true ->
  ToTensorKey_Tensor t = Throw e ->
  PyHandleToTensorKey (PyInstance class_name (HoldsTensor t))
  = Throw KeyConversionError /\
  subscript_get self (PyInstance class_name (HoldsTensor t)) tr
  = (Throw e, tr ++ [EvLogInfo "getitem tensor"]).
Proof.
  intros N T. split.
  - rewrite (ladder_native _ _ N). simpl. rewrite T. reflexivity.
  - rewrite subscript_get_tensor.
    unfold getitem_Tensor, bindM, liftR, LogInfo, emit.
    rewrite T. reflexivity.
Qed.

(** ** What a subscript read does to the engine *)

(** X6: whatever the index, [tensor[index]] adds to the event sequence at
    most one call into the engine, as the last event, and never a write:
    no path of [__getitem__] reaches [SetItem]. *)
Theorem subscript_get_reads_at_most_once (self : Tensor) (index : PyObj)
    (tr : list Event) :
  exists added,
    snd (subscript_get self index tr) = tr ++ added /\
    existsb is_write_call added = false /\
    filter is_engine_call (removelast added) = [] /\
    (List.length (filter is_engine_call added) <= 1)%nat.
Proof.
  destruct index as [|v|start stop step|items|items|a|class_name held].
  - exists []. rewrite app_nil_r. repeat split; auto.
  - rewrite subscript_get_int.
    destruct (in_signed_range INT_BITS v).
    + exists [EvGetItem self (ToTensorKey_int v)]. repeat split; auto.
    + exists []. simpl. rewrite app_nil_r. repeat split; auto.
  - rewrite subscript_get_slice.
    exists [EvGetItem self (ToTensorKey_slice start stop step)].
    repeat split; auto.
  - rewrite subscript_get_list.
    unfold getitem_list, bindM, liftR, Tensor_GetItem, emit.
    destruct (ToTensorKey_list items) as [tk|e]; simpl.
    + exists [EvGetItem self tk]. repeat split; auto.
    + exists []. rewrite app_nil_r. repeat split; auto.
  - rewrite subscript_get_tuple.
    unfold getitem_tuple, bindM, liftR, Tensor_GetItem_vector, emit.
    destruct (getitem_tuple_loop items []) as [tks|e]; simpl.
    + exists [EvGetItem_vector self tks]. repeat split; auto.
    + exists []. rewrite app_nil_r. repeat split; auto.
  - rewrite subscript_get_array.
    unfold getitem_array, bindM, liftR, Tensor_GetItem, emit.
    destruct (ToTensorKey_array a) as [tk|e]; simpl.
    + exists [EvGetItem self tk]. repeat split; auto.
    + exists []. rewrite app_nil_r. repeat split; auto.
  - destruct held as [t|tk| |v].
    + rewrite subscript_get_tensor.
      unfold getitem_Tensor, bindM, liftR, LogInfo, Tensor_GetItem, emit.
      destruct (ToTensorKey_Tensor t) as [tk|e]; simpl.
      * exists [EvLogInfo "getitem tensor"; EvGetItem self tk].
        rewrite <- app_assoc. repeat split; auto.
      * exists [EvLogInfo "getitem tensor"]. repeat split; auto.
    + exists []. rewrite app_nil_r. repeat split; auto.
    + exists []. rewrite app_nil_r. repeat split; auto.
    + rewrite subscript_get_intlike.
      destruct (in_signed_range INT_BITS v).
      * exists [EvGetItem self (ToTensorKey_int v)]. repeat split; auto.
      * exists []. simpl. rewrite app_nil_r. repeat split; auto.
Qed.

(** ** The selector of every submitted Gather key *)

Section SelectorDtype.

(** The part of the contract of [Tensor::To] that the dtype of a submitted
    selector rests on. *)
Hypothesis To_gives_dtype :
  forall t d copy t', To t d copy = Ok t' -> GetDtype t' = d.

Lemma normalized_dtype (copy : bool) (t sel : Tensor) :
  normalize_selector copy t = Ok sel ->
  GetDtype sel = Bool \/ GetDtype sel = Int64.
Proof.
  intros H. destruct (Dtype_eqb (GetDtype t) Bool) eqn:E.
  - assert (B : GetDtype t = Bool) by (destruct (GetDtype t); easy).
    rewrite (normalize_selector_bool _ _ B) in H. inversion H; subst. auto.
  - assert (B : GetDtype t <> Bool) by (intros B; rewrite B in E; easy).
    rewrite (normalize_selector_cast _ _ B) in H.
    right. exact (To_gives_dtype _ _ _ _ H).
Qed.

Lemma ladder_selector_dtype (item : PyObj) (sel : Tensor) :
  classifies item (IndexTensor sel) ->
  GetDtype sel = Bool \/ GetDtype sel = Int64.
Proof.
  intros H. destruct (ladder_inversion _ _ H)
    as [(v & _ & E)|[(start & stop & step & _ & E)|(c & t & s & N & E)]].
  - discriminate E.
  - unfold ToTensorKey_slice in E.
    destruct (PySlice_Unpack start stop step) as [[b e] st]. discriminate E.
  - injection E as ->. exact (normalized_dtype _ _ _ N).
Qed.

Lemma overload_selector_dtype (copy : bool) (r : Result Tensor)
    (tk : TensorKey) (sel : Tensor) :
  bindR r (fun t =>
    bindR (normalize_selector copy t) (fun s => Ok (IndexTensor s))) = Ok tk ->
  tk = IndexTensor sel ->
  GetDtype sel = Bool \/ GetDtype sel = Int64.
Proof.
  destruct r as [t|]; simpl; [|discriminate].
  destruct (normalize_selector copy t) as [s|] eqn:N; simpl; [|discriminate].
  intros [= <-] [= <-]. exact (normalized_dtype _ _ _ N).
Qed.

Lemma submitted_selector_is_bool_or_int64 (self : Tensor) (index : PyObj)
    (sel : Tensor) :
  In (IndexTensor sel) (submitted_keys (snd (subscript_get self index []))) ->
  GetDtype sel = Bool \/ GetDtype sel = Int64.
Proof.
  destruct index as [|v|start stop step|items|items|a|class_name held].
  - intros [].
  - rewrite subscript_get_int. destruct (in_signed_range INT_BITS v);
      simpl; intros H; [destruct H as [H|[]]; discriminate H|destruct H].
  - rewrite subscript_get_slice. simpl. unfold ToTensorKey_slice.
    destruct (PySlice_Unpack start stop step) as [[b e] s].
    intros [H|[]]. discriminate H.
  - rewrite subscript_get_list.
    unfold getitem_list, bindM, liftR, Tensor_GetItem, emit.
    destruct (ToTensorKey_list items) as [tk|e] eqn:E; simpl;
      [intros [H|[]]|intros []].
    rewrite ToTensorKey_list_normalizes in E.
    exact (overload_selector_dtype _ _ _ _ E H).
  - rewrite subscript_get_tuple.
    unfold getitem_tuple, bindM, liftR, Tensor_GetItem_vector, emit.
    destruct (getitem_tuple_loop items []) as [tks|e] eqn:E; simpl;
      [|intros []].
    rewrite app_nil_r. intros HIn.
    destruct (getitem_tuple_loop_ok _ _ _ E) as (ks & -> & F).
    simpl in HIn. clear E.
    induction F as [|item tk items' ks' Hc _ IH]; [destruct HIn|].
    destruct HIn as [->|HIn]; [|exact (IH HIn)].
    exact (ladder_selector_dtype _ _ Hc).
  - rewrite subscript_get_array.
    unfold getitem_array, bindM, liftR, Tensor_GetItem, emit.
    destruct (ToTensorKey_array a) as [tk|e] eqn:E; simpl;
      [intros [H|[]]|intros []].
    rewrite ToTensorKey_array_normalizes in E.
    exact (overload_selector_dtype _ _ _ _ E H).
  - destruct held as [t|tk| |v].
    + rewrite subscript_get_tensor.
      unfold getitem_Tensor, bindM, liftR, LogInfo, Tensor_GetItem, emit.
      destruct (ToTensorKey_Tensor t) as [tk|e] eqn:E; simpl;
        [intros [H|[]]|intros []].
      rewrite ToTensorKey_Tensor_normalizes in E.
      exact (overload_selector_dtype false (Ok t) _ _ E H).
    + intros [].
    + intros [].
    + rewrite subscript_get_intlike. destruct (in_signed_range INT_BITS v);
        simpl; intros H; [destruct H as [H|[]]; discriminate H|destruct H].
Qed.

End SelectorDtype.

(** X9: if [Tensor::To] returns a tensor of the dtype it is asked for,
    every Gather key that a subscript read hands to the engine, alone or as
    one key of a tuple, wraps a selector of dtype [Bool] or [Int64].  The
    accessor itself refuses no selector for its dtype: a tensor or a numpy
    array of any other dtype, floats included, is submitted as its cast to
    [Int64] whenever that cast (and, for an array, the conversion) returns. *)
Theorem submitted_selector_dtype (self : Tensor) :
  (forall t d copy t', To t d copy = Ok t' -> GetDtype t' = d) ->
  (forall index sel,
      In (IndexTensor sel)
         (submitted_keys (snd (subscript_get self index []))) ->
      GetDtype sel = Bool \/ GetDtype sel = Int64)
  /\
  (forall class_name t t' tr,
      GetDtype t <> Bool ->
      To t Int64 false = Ok t' ->
      subscript_get self (PyInstance class_name (HoldsTensor t)) tr
      = (GetItem self (IndexTensor t'),
         tr ++ [EvLogInfo "getitem tensor"; EvGetItem self (IndexTensor t')]))
  /\
  (forall a t t' tr,
      PyArrayToTensor a false = Ok t ->
      GetDtype t <> Bool ->
      To t Int64 To_default_copy = Ok t' ->
      subscript_get self (PyArray a) tr
      = (GetItem self (IndexTensor t'),
         tr ++ [EvGetItem self (IndexTensor t')])).
Proof.
  intros Hdt. split; [|split].
  - intros index sel.
    exact (submitted_selector_is_bool_or_int64 Hdt self index sel).
  - intros class_name t t' tr B C. rewrite subscript_get_tensor.
    unfold getitem_Tensor, bindM, liftR, LogInfo, Tensor_GetItem, emit.
    rewrite ToTensorKey_Tensor_normalizes, (normalize_selector_cast _ _ B), C.
    simpl. rewrite <- app_assoc. reflexivity.
  - intros a t t' tr A B C. rewrite subscript_get_array.
    unfold getitem_array, bindM, liftR, Tensor_GetItem, emit.
    rewrite ToTensorKey_array_normalizes, A. simpl.
    rewrite (normalize_selector_cast _ _ B), C. reflexivity.
Qed.

End MoreProperties.

(** * The accessor on concrete index expressions *)

Import Reference.

Lemma Dtype_eqb_eq (a b : Dtype) : Dtype_eqb a b = true <-> a = b.
Proof. destruct a, b; simpl; split; intros H; congruence. Qed.

Lemma reference_contract : ToContract Reference.collaborators.
Proof.
  split; simpl; unfold to.
  - intros t d copy t'. destruct (Dtype_eqb (dtype t) d) eqn:E.
    + intros [= <-]. now apply Dtype_eqb_eq.
    + intros [= <-]. reflexivity.
  - intros t d copy <-.
    now rewrite (proj2 (Dtype_eqb_eq (dtype t) (dtype t)) eq_refl).
Qed.

(** [a[[3, 4, 5]]] submits one key over one axis; [a[(3, 4, 5)]] submits
    three keys, one per axis. *)
Example list_345_one_key :
  snd (subscript_get rows (PyList [PyInt 3; PyInt 4; PyInt 5]) [])
  = [EvGetItem rows (IndexTensor (mkTensor Int64 [3; 4; 5]))].
Proof. reflexivity. Qed.

Example tuple_345_three_keys :
  snd (subscript_get rows (PyTuple [PyInt 3; PyInt 4; PyInt 5]) [])
  = [EvGetItem_vector rows [Index 3; Index 4; Index 5]].
Proof. reflexivity. Qed.

(** A Boolean mask keeps its dtype and selects [10, 30, 50]. *)
Example boolean_mask_selection :
  subscript_get rows (native flags) []
  = (Ok (mkTensor Int64 [10; 30; 50]),
     [EvLogInfo "getitem tensor"; EvGetItem rows (IndexTensor flags)]).
Proof. reflexivity. Qed.

(** [a[:5]]. *)
Example slice_stop_5 :
  PyHandleToTensorKey (PySlice PyNone (PyInt 5) PyNone)
  = Ok (Slice 0 5 1 true false true).
Proof. reflexivity. Qed.

(** [a[-1]] and [a[(-1,)]] carry [-1] to the engine. *)
Example negative_index_alone_and_in_tuple :
  subscript_get rows (PyInt (-1)) []
  = (Ok (mkTensor Int64 [50]), [EvGetItem rows (Index (-1))]) /\
  subscript_get rows (PyTuple [PyInt (-1)]) []
  = (Ok (mkTensor Int64 [50]), [EvGetItem_vector rows [Index (-1)]]).
Proof. split; reflexivity. Qed.


(** C3 (counterexample): no [__setitem__] is registered, so
    [a[[1]] = value] reaches no method although [a[[1]]] reads; and
    [_setitem] does not take the unclassified index [[1]]. *)
Lemma no_subscript_assignment :
  overloads_named accessor_methods "__setitem__" = [] /\
  subscript_set rows (PyList [PyInt 1]) (native (mkTensor Int64 [7])) []
  = (Throw type_error, []) /\
  call_method accessor_methods "_setitem" rows
    [PyList [PyInt 1]; native (mkTensor Int64 [7])] []
  = (Throw type_error, []) /\
  subscript_get rows (PyList [PyInt 1]) []
  = (Ok (mkTensor Int64 [20]),
     [EvGetItem rows (IndexTensor (mkTensor Int64 [1]))]).
Proof. repeat split; reflexivity. Qed.

(** C8 (failing input): the int [4294967296] fits [int64_t], yet as an item
    of a tuple it reaches the engine as [Index 0]: [a[(4294967296,)]]
    reads element 0.  The ladder converts the item to [int64_t] and passes
    it to [ToTensorKey(int)], which keeps the low 32 bits. *)
Theorem scalar_index_truncated_in_tuple :
  in_signed_range 64 4294967296 = true /\
  PyHandleToTensorKey (PyInt 4294967296) = Ok (Index 0) /\
  subscript_get rows (PyTuple [PyInt 4294967296]) []
  = (Ok (mkTensor Int64 [10]), [EvGetItem_vector rows [Index 0]]) /\
  subscript_get rows (PyInt 4294967296) [] = (Throw type_error, []).
Proof. repeat split; reflexivity. Qed.

(** ** Instances of the conditional theorems *)

(** The [Int32] selector [[3, 4]] is cast once; its normal form is kept. *)
Lemma gather_dtype_normalization_witness :
  ToTensorKey_Tensor narrow = Ok (IndexTensor (mkTensor Int64 [3; 4])) /\
  ToTensorKey_Tensor (mkTensor Int64 [3; 4])
  = Ok (IndexTensor (mkTensor Int64 [3; 4])).
Proof.
  split; [reflexivity|].
  destruct (gather_dtype_normalization reference_contract)
    as (_ & _ & _ & _ & _ & _ & _ & twice).
  apply (twice narrow). reflexivity.
Defined.

(** A [str] item is refused by name. *)
Lemma unsupported_type_fails_witness :
  recognized_class (type_str text) = false /\
  PyHandleToTensorKey text = Throw (UnsupportedIndexType "<class 'str'>").
Proof.
  split; [reflexivity|].
  apply (unsupported_type_fails text). reflexivity.
Defined.

(** A bound [TensorKey] passes the name rule and is not a [Tensor]. *)
Lemma tensor_cast_failure_witness :
  is_native_tensor_name (type_str (bound_key (Index 1))) = true /\
  cast_Tensor (bound_key (Index 1)) = Throw cast_error /\
  PyHandleToTensorKey (bound_key (Index 1)) = Throw KeyConversionError.
Proof.
  split; [reflexivity|]. split; [reflexivity|].
  apply (tensor_cast_failure (bound_key (Index 1)) cast_error); reflexivity.
Defined.

(** [a[[3]]] submits one Gather key; [a[(3,)]] submits the scalar key of its
    item through the multi-key entry. *)
Lemma list_tuple_asymmetry_witness :
  subscript_get rows (PyList [PyInt 3]) []
  = (Ok (mkTensor Int64 [40]),
     [EvGetItem rows (IndexTensor (mkTensor Int64 [3]))]) /\
  subscript_get rows (PyTuple [PyInt 3]) []
  = (Ok (mkTensor Int64 [40]), [EvGetItem_vector rows [Index 3]]).
Proof.
  destruct (@list_tuple_asymmetry types collaborators rows [PyInt 3] [])
    as (one & _ & _ & _ & each & _).
  split.
  - apply (one (mkTensor Int64 [3]) (mkTensor Int64 [3])); reflexivity.
  - apply (each [3]); [reflexivity|repeat constructor].
Defined.




(** ** Instances of the further properties *)

(** [a[1, "x", None]] raises the error of ["x"], not that of [None]. *)
Lemma first_failure_decides_witness :
  Forall2 classifies [PyInt 1] [Index 1] /\
  PyHandleToTensorKey PyNone
  = Throw (UnsupportedIndexType "<class 'NoneType'>") /\
  subscript_get rows (PyTuple [PyInt 1; text; PyNone]) []
  = (Throw (UnsupportedIndexType "<class 'str'>"), []).
Proof.
  split; [repeat constructor|]. split; [reflexivity|].
  apply (@first_failure_decides types collaborators rows
           [PyInt 1] [PyNone] [Index 1] text
           (UnsupportedIndexType "<class 'str'>") []).
  - repeat constructor.
  - reflexivity.
Defined.

(** The item [4294967297] gives the key [Index 1]. *)
Lemma ladder_index_in_int_range_witness :
  classifies (PyInt 4294967297) (Index 1) /\
  in_signed_range INT_BITS 1 = true.
Proof.
  split; [reflexivity|].
  apply (@ladder_index_in_int_range types collaborators
           (PyInt 4294967297) 1).
  reflexivity.
Defined.

Lemma ladder_index_is_value_mod_2_32_witness :
  in_signed_range 64 (-4294967297) = true /\
  exists i,
    classifies (PyInt (-4294967297)) (Index i) /\
    (i - -4294967297) mod 2 ^ INT_BITS = 0 /\
    in_signed_range INT_BITS i = true /\
    (i = -4294967297 <-> in_signed_range INT_BITS (-4294967297) = true).
Proof.
  split; [reflexivity|].
  apply (@ladder_index_is_value_mod_2_32 types collaborators (-4294967297)).
  reflexivity.
Defined.

(** A bound beyond 32 bits in [a[4294967296:]]. *)
Lemma slice_bounds_not_truncated_witness :
  PyHandleToTensorKey (PySlice (PyInt 4294967296) PyNone PyNone)
  = Ok (Slice 4294967296 9223372036854775807 1 false true true).
Proof.
  apply (@slice_bounds_not_truncated types collaborators
           (PyInt 4294967296) PyNone PyNone
           4294967296 9223372036854775807 1);
    reflexivity.
Defined.

(** [a[1, [0, 2]]] from [a[(1,)]] and [a[([0, 2],)]]. *)
Lemma tuple_keys_concatenate_witness :
  getitem_tuple_loop [PyInt 1; PyList [PyInt 0; PyInt 2]] []
  = Ok [Index 1; IndexTensor (mkTensor Int64 [0; 2])] /\
  snd (subscript_get rows (PyTuple [PyInt 1; PyList [PyInt 0; PyInt 2]]) [])
  = [EvGetItem_vector rows [Index 1; IndexTensor (mkTensor Int64 [0; 2])]].
Proof.
  destruct (@tuple_keys_concatenate types collaborators rows
              [PyInt 1] [PyList [PyInt 0; PyInt 2]]
              [Index 1] [@IndexTensor types (mkTensor Int64 [0; 2])] []
              eq_refl eq_refl) as [L S].
  split; [exact L|]. exact (f_equal snd S).
Defined.

(** A tensor of undefined dtype: the cast's error alone, the fixed message
    inside a tuple. *)
Lemma tensor_branch_masks_errors_witness :
  @PyHandleToTensorKey types Checked.collaborators (native Checked.blank)
  = Throw KeyConversionError /\
  @subscript_get types Checked.collaborators rows (native Checked.blank) []
  = (Throw (collaborator_error "cast of an undefined dtype"),
     [EvLogInfo "getitem tensor"]).
Proof.
  apply (@tensor_branch_masks_errors types Checked.collaborators rows
           Checked.blank "<class 'open3d.pybind.core.Tensor'>"
           (collaborator_error "cast of an undefined dtype") []);
    reflexivity.
Defined.

(** A tensor of the bound class is classified inside a tuple; a bound
    [TensorKey], whose class name also holds both words, gets the cast
    message. *)
Lemma class_text_decides_tensor_branch_witness :
  PyHandleToTensorKey (native narrow)
  = Ok (IndexTensor (mkTensor Int64 [3; 4])) /\
  PyHandleToTensorKey (bound_key (Index 1)) = Throw KeyConversionError.
Proof.
  split.
  - destruct (@class_text_decides_tensor_branch types collaborators
                "<class 'open3d.pybind.core.Tensor'>" HoldsNothing narrow
                (@IndexTensor types (mkTensor Int64 [3; 4]))) as [accepted _].
    apply accepted; [reflexivity|]. split.
    + exists "<class '", ".pybind.core.Tensor'>". reflexivity.
    + exists "<class 'open3d.pybind.core.", "'>". reflexivity.
  - destruct (@class_text_decides_tensor_branch types collaborators
                "<class 'open3d.pybind.core.TensorKey'>"
                (HoldsKey (Index 1)) narrow (Index 0)) as [_ refused].
    apply refused; [discriminate|]. split.
    + exists "<class '", ".pybind.core.TensorKey'>". reflexivity.
    + exists "<class 'open3d.pybind.core.", "Key'>". reflexivity.
Defined.

(** A [Float32] selector [[1, 3]] is cast and submitted. *)
Lemma submitted_selector_dtype_witness :
  subscript_get rows (native (mkTensor Float32 [1; 3])) []
  = (Ok (mkTensor Int64 [20; 40]),
     [EvLogInfo "getitem tensor";
      EvGetItem rows (IndexTensor (mkTensor Int64 [1; 3]))]).
Proof.
  destruct (@submitted_selector_dtype types collaborators rows
              (@To_dtype types collaborators reference_contract))
    as (_ & cast & _).
  apply (cast "<class 'open3d.pybind.core.Tensor'>"
              (mkTensor Float32 [1; 3]) (mkTensor Int64 [1; 3]) []).
  - discriminate.
  - reflexivity.
Defined.
